(** * The progress manager's [stateSyncMap]

    A shallow embedding of
    [supernode/daemon/mgr/progress/state_sync_map.go]: a string-keyed
    registry built on Go's [sync.Map], storing [interface{}] values and
    offering an untyped lookup plus four typed lookups that check the
    dynamic type of what they find.

    The registry's contents are a finite map; every method is a computation
    in a small state monad over that map, so that what a call returns and
    what it does to the registry are both visible in its result. *)

From stdpp Require Import base strings gmap fin_maps list.

Open Scope string_scope.

(** ** Errors *)

Module errortypes.

(** Modelled from the spec: the three sentinel errors of [pkg/errortypes]
    that this file refers to (the package is outside the sources at hand).
    The spec calls them [EmptyKey], [NotFound] and [TypeMismatch] and
    treats them as pairwise distinct kinds. *)
Inductive DfError : Set :=
| ErrEmptyValue
| ErrDataNotFound
| ErrConvertFailed.

End errortypes.

Module errors.
Import errortypes.

(** Go's [error] values as they arise here: a sentinel, or an error
    annotated with a message by [github.com/pkg/errors] (the recorded call
    stack is left out). *)
Inductive error : Set :=
| sentinel (e : DfError)
| withMessage (cause : error) (msg : string).

Definition Wrap (err : error) (message : string) : error :=
  withMessage err message.

(** [Wrapf] receives its message already formatted. *)
Definition Wrapf (err : error) (formatted : string) : error :=
  withMessage err formatted.

(** [errors.Cause]: strip the annotations down to the underlying error. *)
Fixpoint Cause (err : error) : DfError :=
  match err with
  | sentinel e => e
  | withMessage cause _ => Cause cause
  end.

End errors.

Module stringutils.

(** Modelled from the spec: [stringutils.IsEmptyStr] ([pkg/stringutils] is
    outside the sources at hand); it holds exactly of the empty string,
    the only key the store rejects. *)
Definition IsEmptyStr (s : string) : bool :=
  match s with
  | EmptyString => true
  | String _ _ => false
  end.

End stringutils.

(** ** Values, pointers and the registry *)

(** A Go pointer [*T]: nil or an address.  The registry never dereferences
    what it stores, so the pointee's contents play no part. *)
Inductive pointer (T : Type) : Type :=
| null
| ref (address : N).
Arguments null {T}.
Arguments ref {T} address.

(** The variant kinds the typed lookups ask for. *)
Inductive kind : Set :=
| SuperStateKind
| ClientStateKind
| PeerStateKind
| PieceStateKind.

(** A computation over a registry of type [S]: Go's method call on a shared
    [*sync.Map], with the map threaded through. *)
Definition M (S A : Type) : Type := S → A * S.

Definition ret {S A : Type} (a : A) : M S A := λ s, (a, s).

Definition bind {S A B : Type} (c : M S A) (k : A → M S B) : M S B :=
  λ s, let '(a, s') := c s in k a s'.

Notation "'let*' p ':=' c 'in' k" := (bind c (λ p, k))
  (at level 10, p pattern, c at level 100, k at level 200,
   format "'let*'  p  ':='  c  'in' '//' k").
Notation "c ';;' k" := (bind c (λ _, k))
  (at level 100, k at level 200, right associativity).

Section StateSyncMap.
Import errortypes errors stringutils.

(** The four entity records live in another file of the package; only
    pointers to them are stored, so they are parameters here.  [other]
    stands for Go values of any further dynamic type. *)
Variables superState clientState peerState pieceState other : Type.

(** An [interface{}] value: the nil interface, or a value tagged with its
    dynamic type. *)
Inductive value : Type :=
| nil
| ptrSuperState (p : pointer superState)
| ptrClientState (p : pointer clientState)
| ptrPeerState (p : pointer peerState)
| ptrPieceState (p : pointer pieceState)
| otherValue (x : other).

(** The [%v] rendering of a stored value in an error message. *)
Variable fmt_v : value → string.

(** [stateSyncMap]: the contents of the embedded [*sync.Map]. *)
Definition stateSyncMap : Type := gmap string value.

(** [sync.Map]'s methods. *)
Definition Store (key : string) (v : value) : M stateSyncMap unit :=
  λ m, (tt, <[key := v]> m).

Definition Load (key : string) : M stateSyncMap (value * bool) :=
  λ m, match m !! key with
       | Some v => ((v, true), m)
       | None => ((nil, false), m)
       end.

Definition Delete (key : string) : M stateSyncMap unit :=
  λ m, (tt, delete key m).

Definition newStateSyncMap : stateSyncMap := ∅.

(** Go's type assertion of [v] to pointer-to-[superState], and its three
    siblings: the pointer and [ok]. *)
Definition assert_superState (v : value) : pointer superState * bool :=
  match v with ptrSuperState p => (p, true) | _ => (null, false) end.

Definition assert_clientState (v : value) : pointer clientState * bool :=
  match v with ptrClientState p => (p, true) | _ => (null, false) end.

Definition assert_peerState (v : value) : pointer peerState * bool :=
  match v with ptrPeerState p => (p, true) | _ => (null, false) end.

Definition assert_pieceState (v : value) : pointer pieceState * bool :=
  match v with ptrPieceState p => (p, true) | _ => (null, false) end.

(** The variant kind of a stored value, if it is one of the four. *)
Definition kind_of (v : value) : option kind :=
  match v with
  | ptrSuperState _ => Some SuperStateKind
  | ptrClientState _ => Some ClientStateKind
  | ptrPeerState _ => Some PeerStateKind
  | ptrPieceState _ => Some PieceStateKind
  | nil | otherValue _ => None
  end.

(** *** The methods of [stateSyncMap] *)

Definition add (key : string) (v : value) : M stateSyncMap (option error) :=
  if IsEmptyStr key then
    ret (Some (Wrap (sentinel ErrEmptyValue) "key"))
  else
    Store key v ;;
    ret None.

Definition get (key : string) : M stateSyncMap (value * option error) :=
  if IsEmptyStr key then
    ret (nil, Some (Wrap (sentinel ErrEmptyValue) "key"))
  else
    let* (v, ok) := Load key in
    if ok : bool then ret (v, None)
    else ret (nil, Some (Wrapf (sentinel ErrDataNotFound) ("key: " ++ key))).

Definition getAsSuperState (key : string)
  : M stateSyncMap (pointer superState * option error) :=
  let* (v, err) := get key in
  match err with
  | Some err => ret (null, Some (Wrapf err ("key: " ++ key)))
  | None =>
      let '(p, ok) := assert_superState v in
      if ok : bool then ret (p, None)
      else ret (null, Some (Wrapf (sentinel ErrConvertFailed)
                              ("key " ++ key ++ ": " ++ fmt_v v)))
  end.

Definition getAsClientState (key : string)
  : M stateSyncMap (pointer clientState * option error) :=
  let* (v, err) := get key in
  match err with
  | Some err => ret (null, Some (Wrapf err ("key: " ++ key)))
  | None =>
      let '(p, ok) := assert_clientState v in
      if ok : bool then ret (p, None)
      else ret (null, Some (Wrapf (sentinel ErrConvertFailed)
                              ("key " ++ key ++ ": " ++ fmt_v v)))
  end.

Definition getAsPeerState (key : string)
  : M stateSyncMap (pointer peerState * option error) :=
  let* (v, err) := get key in
  match err with
  | Some err => ret (null, Some (Wrapf err ("key: " ++ key)))
  | None =>
      let '(p, ok) := assert_peerState v in
      if ok : bool then ret (p, None)
      else ret (null, Some (Wrapf (sentinel ErrConvertFailed)
                              ("key " ++ key ++ ": " ++ fmt_v v)))
  end.

Definition getAsPieceState (key : string)
  : M stateSyncMap (pointer pieceState * option error) :=
  let* (v, err) := get key in
  match err with
  | Some err => ret (null, Some (Wrapf err ("key: " ++ key)))
  | None =>
      let '(p, ok) := assert_pieceState v in
      if ok : bool then ret (p, None)
      else ret (null, Some (Wrapf (sentinel ErrConvertFailed)
                              ("key " ++ key ++ ": " ++ fmt_v v)))
  end.

Definition remove (key : string) : M stateSyncMap (option error) :=
  if IsEmptyStr key then
    ret (Some (Wrap (sentinel ErrEmptyValue) "key"))
  else
    let* (_, ok) := Load key in
    if negb ok then
      ret (Some (Wrapf (sentinel ErrDataNotFound) ("key: " ++ key)))
    else
      Delete key ;;
      ret None.

(** *** Histories of calls *)

(** One call on the registry by some client of the package. *)
Inductive call : Type :=
| call_add (key : string) (v : value)
| call_get (key : string)
| call_getAsSuperState (key : string)
| call_getAsClientState (key : string)
| call_getAsPeerState (key : string)
| call_getAsPieceState (key : string)
| call_remove (key : string).

(** Make the call and drop what it returns. *)
Definition perform (c : call) : M stateSyncMap unit :=
  match c with
  | call_add key v => add key v ;; ret tt
  | call_get key => get key ;; ret tt
  | call_getAsSuperState key => getAsSuperState key ;; ret tt
  | call_getAsClientState key => getAsClientState key ;; ret tt
  | call_getAsPeerState key => getAsPeerState key ;; ret tt
  | call_getAsPieceState key => getAsPieceState key ;; ret tt
  | call_remove key => remove key ;; ret tt
  end.

Fixpoint perform_all (cs : list call) : M stateSyncMap unit :=
  match cs with
  | [] => ret tt
  | c :: cs' => perform c ;; perform_all cs'
  end.

Definition adds (key : string) (c : call) : bool :=
  match c with
  | call_add key' _ => bool_decide (key' = key)
  | _ => false
  end.

Definition removes (key : string) (c : call) : bool :=
  match c with
  | call_remove key' => bool_decide (key' = key)
  | _ => false
  end.

(** The registry a computation leaves behind, and the error kind (if any)
    in what it returned. *)
Definition after {A : Type} (c : M stateSyncMap A) (m : stateSyncMap)
  : stateSyncMap := (c m).2.

Definition failure {A : Type} (r : A * option error) : option DfError :=
  Cause <$> r.2.

(** The error values the methods build. *)
Definition emptyKeyError : error := Wrap (sentinel ErrEmptyValue) "key".

Definition notFoundError (key : string) : error :=
  Wrapf (sentinel ErrDataNotFound) ("key: " ++ key).

Definition convertFailedError (key : string) (v : value) : error :=
  Wrapf (sentinel ErrConvertFailed) ("key " ++ key ++ ": " ++ fmt_v v).

(** What the claim about typed lookups asks of a lookup [g] for kind [K]:
    it fails as [get] does whenever [get] fails, and it reports a failed
    conversion exactly for a present key holding something else. *)
Definition fails_as_get_or_mismatch {T : Type} (K : kind)
    (g : string → M stateSyncMap (pointer T * option error)) : Prop :=
  ∀ (m : stateSyncMap) (key : string),
    (∀ e, failure (get key m).1 = Some e →
          failure (g key m).1 = Some e ∧ (g key m).1.1 = null) ∧
    (key = EmptyString → failure (g key m).1 = Some ErrEmptyValue) ∧
    (key ≠ EmptyString → m !! key = None →
       failure (g key m).1 = Some ErrDataNotFound) ∧
    (failure (g key m).1 = Some ErrConvertFailed ↔
       key ≠ EmptyString ∧ ∃ v, m !! key = Some v ∧ kind_of v ≠ Some K).

(** What a typed lookup returns, in terms of its type assertion (used to
    state the lookups' equations below). *)
Definition typed_result {T : Type} (assertion : value → pointer T * bool)
    (key : string) (m : stateSyncMap) : pointer T * option error :=
  if IsEmptyStr key then
    (null, Some (Wrapf emptyKeyError ("key: " ++ key)))
  else match m !! key with
       | None => (null, Some (Wrapf (notFoundError key) ("key: " ++ key)))
       | Some v => if (assertion v).2 then ((assertion v).1, None)
                   else (null, Some (convertFailedError key v))
       end.

(** The assertions succeed exactly on their own kind. *)
Definition asserts_kind {T : Type} (K : kind)
    (assertion : value → pointer T * bool) : Prop :=
  ∀ v, (assertion v).2 = true ↔ kind_of v = Some K.

(** A history that never adds under [key], and one that neither adds nor
    removes under it. *)
Definition never_adds (key : string) (cs : list call) : bool :=
  forallb (λ c, negb (adds key c)) cs.

Definition never_writes (key : string) (cs : list call) : bool :=
  forallb (λ c, negb (adds key c) && negb (removes key c)) cs.

(** The key a call is made under, and whether the call is one of the two
    that can change the registry. *)
Definition key_of (c : call) : string :=
  match c with
  | call_add key _ => key
  | call_get key => key
  | call_getAsSuperState key => key
  | call_getAsClientState key => key
  | call_getAsPeerState key => key
  | call_getAsPieceState key => key
  | call_remove key => key
  end.

Definition writes (c : call) : bool :=
  match c with
  | call_add _ _ | call_remove _ => true
  | _ => false
  end.

(** ** Equations of the methods *)

Lemma IsEmptyStr_true (s : string) : IsEmptyStr s = true ↔ s = EmptyString.
Proof. destruct s; simpl; split; congruence. Qed.

Lemma IsEmptyStr_false (s : string) : IsEmptyStr s = false ↔ s ≠ EmptyString.
Proof. destruct s; simpl; split; congruence. Qed.

Lemma add_unfold key v (m : stateSyncMap) :
  add key v m =
    if IsEmptyStr key then (Some emptyKeyError, m)
    else (None, <[key := v]> m).
Proof. unfold add. by destruct (IsEmptyStr key). Qed.

Lemma get_unfold key (m : stateSyncMap) :
  get key m =
    if IsEmptyStr key then ((nil, Some emptyKeyError), m)
    else match m !! key with
         | Some v => ((v, None), m)
         | None => ((nil, Some (notFoundError key)), m)
         end.
Proof.
  unfold get. destruct (IsEmptyStr key); [done|].
  unfold bind, Load. by destruct (m !! key).
Qed.

Lemma remove_unfold key (m : stateSyncMap) :
  remove key m =
    if IsEmptyStr key then (Some emptyKeyError, m)
    else match m !! key with
         | Some _ => (None, delete key m)
         | None => (Some (notFoundError key), m)
         end.
Proof.
  unfold remove. destruct (IsEmptyStr key); [done|].
  unfold bind, Load. by destruct (m !! key).
Qed.

Lemma getAsSuperState_unfold key (m : stateSyncMap) :
  getAsSuperState key m = (typed_result assert_superState key m, m).
Proof.
  unfold getAsSuperState, bind, typed_result. rewrite get_unfold.
  destruct (IsEmptyStr key); [done|].
  destruct (m !! key) as [v|]; [|done].
  by destruct (assert_superState v) as [p []].
Qed.

Lemma getAsClientState_unfold key (m : stateSyncMap) :
  getAsClientState key m = (typed_result assert_clientState key m, m).
Proof.
  unfold getAsClientState, bind, typed_result. rewrite get_unfold.
  destruct (IsEmptyStr key); [done|].
  destruct (m !! key) as [v|]; [|done].
  by destruct (assert_clientState v) as [p []].
Qed.

Lemma getAsPeerState_unfold key (m : stateSyncMap) :
  getAsPeerState key m = (typed_result assert_peerState key m, m).
Proof.
  unfold getAsPeerState, bind, typed_result. rewrite get_unfold.
  destruct (IsEmptyStr key); [done|].
  destruct (m !! key) as [v|]; [|done].
  by destruct (assert_peerState v) as [p []].
Qed.

Lemma getAsPieceState_unfold key (m : stateSyncMap) :
  getAsPieceState key m = (typed_result assert_pieceState key m, m).
Proof.
  unfold getAsPieceState, bind, typed_result. rewrite get_unfold.
  destruct (IsEmptyStr key); [done|].
  destruct (m !! key) as [v|]; [|done].
  by destruct (assert_pieceState v) as [p []].
Qed.

Lemma assert_superState_kind : asserts_kind SuperStateKind assert_superState.
Proof. intros []; simpl; split; congruence. Qed.

Lemma assert_clientState_kind : asserts_kind ClientStateKind assert_clientState.
Proof. intros []; simpl; split; congruence. Qed.

Lemma assert_peerState_kind : asserts_kind PeerStateKind assert_peerState.
Proof. intros []; simpl; split; congruence. Qed.

Lemma assert_pieceState_kind : asserts_kind PieceStateKind assert_pieceState.
Proof. intros []; simpl; split; congruence. Qed.

Lemma typed_result_fails_as_get {T : Type} (K : kind)
    (assertion : value → pointer T * bool)
    (g : string → M stateSyncMap (pointer T * option error)) :
  asserts_kind K assertion →
  (∀ key m, g key m = (typed_result assertion key m, m)) →
  fails_as_get_or_mismatch K g.
Proof.
  intros Hk Hg m key. rewrite Hg, get_unfold. unfold typed_result, failure.
  destruct (IsEmptyStr key) eqn:Hkey; simpl.
  - apply IsEmptyStr_true in Hkey. split_and!; try done.
    split; [done | by intros [? _]].
  - apply IsEmptyStr_false in Hkey.
    destruct (m !! key) as [v|] eqn:Hm; simpl.
    + destruct (assertion v).2 eqn:Ha; simpl.
      * apply Hk in Ha. split_and!; try done.
        split; [done | by intros (_ & v' & [= <-] & Hne)].
      * assert (kind_of v ≠ Some K) as Hne.
        { intros Hv. apply Hk in Hv. congruence. }
        split_and!; try done. split; eauto.
    + split_and!; try done.
      split; [done | by intros (_ & v & ? & _)].
Qed.

(** ** Histories *)

Lemma get_absent key (m : stateSyncMap) :
  key ≠ EmptyString → m !! key = None →
  get key m = ((nil, Some (notFoundError key)), m).
Proof. intros Hkey%IsEmptyStr_false Hm. by rewrite get_unfold, Hkey, Hm. Qed.

Lemma remove_absent key (m : stateSyncMap) :
  key ≠ EmptyString → m !! key = None →
  remove key m = (Some (notFoundError key), m).
Proof. intros Hkey%IsEmptyStr_false Hm. by rewrite remove_unfold, Hkey, Hm. Qed.

Lemma typed_result_absent {T : Type} (assertion : value → pointer T * bool)
    key (m : stateSyncMap) :
  key ≠ EmptyString → m !! key = None →
  typed_result assertion key m
  = (null, Some (Wrapf (notFoundError key) ("key: " ++ key))).
Proof. intros Hkey%IsEmptyStr_false Hm. unfold typed_result. by rewrite Hkey, Hm. Qed.

(** The registry after one call. *)
Lemma after_perform (c : call) (m : stateSyncMap) :
  after (perform c) m =
    match c with
    | call_add key v => if IsEmptyStr key then m else <[key := v]> m
    | call_remove key => if IsEmptyStr key then m else delete key m
    | _ => m
    end.
Proof.
  unfold after.
  destruct c as [key v|key|key|key|key|key|key]; unfold perform, bind.
  - rewrite add_unfold. by destruct (IsEmptyStr key).
  - rewrite get_unfold. destruct (IsEmptyStr key); [done|].
    by destruct (m !! key).
  - by rewrite getAsSuperState_unfold.
  - by rewrite getAsClientState_unfold.
  - by rewrite getAsPeerState_unfold.
  - by rewrite getAsPieceState_unfold.
  - rewrite remove_unfold. destruct (IsEmptyStr key); [done|].
    destruct (m !! key) eqn:Hm; [done|]. simpl.
    unfold stateSyncMap in *. by rewrite delete_id.
Qed.

Lemma after_perform_all_cons (c : call) cs (m : stateSyncMap) :
  after (perform_all (c :: cs)) m
  = after (perform_all cs) (after (perform c) m).
Proof. unfold after; simpl. unfold bind. by destruct (perform c m). Qed.

(** A call that does not add under [key] keeps [key] absent. *)
Lemma perform_keeps_absent (c : call) key (m : stateSyncMap) :
  adds key c = false → m !! key = None →
  after (perform c) m !! key = None.
Proof.
  intros Hc Hm. rewrite after_perform. unfold stateSyncMap in *.
  destruct c as [key' v|?|?|?|?|?|key']; try done.
  - simpl in Hc. apply bool_decide_eq_false in Hc.
    destruct (IsEmptyStr key'); [done|]. by rewrite lookup_insert_ne.
  - destruct (IsEmptyStr key'); [done|].
    rewrite lookup_delete. by case_decide.
Qed.

Lemma perform_all_keeps_absent cs key (m : stateSyncMap) :
  never_adds key cs = true → m !! key = None →
  after (perform_all cs) m !! key = None.
Proof.
  revert m. induction cs as [|c cs IH]; intros m Hcs Hm; [done|].
  simpl in Hcs. apply andb_true_iff in Hcs as [Hc Hcs].
  apply negb_true_iff in Hc.
  rewrite after_perform_all_cons. apply IH; [done|].
  by apply perform_keeps_absent.
Qed.

(** A call that neither adds nor removes under [key] leaves what [key]
    holds alone. *)
Lemma perform_frame (c : call) key (m : stateSyncMap) :
  adds key c = false → removes key c = false →
  after (perform c) m !! key = m !! key.
Proof.
  intros Ha Hr. rewrite after_perform. unfold stateSyncMap in *.
  destruct c as [key' v|?|?|?|?|?|key']; try done.
  - simpl in Ha. apply bool_decide_eq_false in Ha.
    destruct (IsEmptyStr key'); [done|]. by rewrite lookup_insert_ne.
  - simpl in Hr. apply bool_decide_eq_false in Hr.
    destruct (IsEmptyStr key'); [done|]. by rewrite lookup_delete_ne.
Qed.

Lemma perform_all_frame cs key (m : stateSyncMap) :
  never_writes key cs = true →
  after (perform_all cs) m !! key = m !! key.
Proof.
  revert m. induction cs as [|c cs IH]; intros m Hcs; [done|].
  simpl in Hcs. apply andb_true_iff in Hcs as [Hc Hcs].
  apply andb_true_iff in Hc as [Ha%negb_true_iff Hr%negb_true_iff].
  rewrite after_perform_all_cons, IH by done.
  by apply perform_frame.
Qed.

(** ** The claims *)

(** C1.  A non-empty key that holds a pointer to a [pieceState] makes
    [getAsPeerState] return no pointer and an error whose cause is
    [ErrConvertFailed].  Each of the four typed lookups fails with the
    error kind [get] fails with whenever [get] fails ([ErrEmptyValue] on
    the empty key, [ErrDataNotFound] on an absent one), and reports
    [ErrConvertFailed] exactly when the key is non-empty, present, and
    holds a value of another kind. *)
Theorem typed_lookups_fail_as_get_or_on_mismatch :
  (∀ (m : stateSyncMap) key p,
     key ≠ EmptyString → m !! key = Some (ptrPieceState p) →
     getAsPeerState key m =
       ((null, Some (convertFailedError key (ptrPieceState p))), m) ∧
     failure (getAsPeerState key m).1 = Some ErrConvertFailed) ∧
  fails_as_get_or_mismatch SuperStateKind getAsSuperState ∧
  fails_as_get_or_mismatch ClientStateKind getAsClientState ∧
  fails_as_get_or_mismatch PeerStateKind getAsPeerState ∧
  fails_as_get_or_mismatch PieceStateKind getAsPieceState.
Proof.
  split.
  - intros m key p Hkey Hm. apply IsEmptyStr_false in Hkey.
    rewrite getAsPeerState_unfold. unfold typed_result. by rewrite Hkey, Hm.
  - split_and!.
    + eapply typed_result_fails_as_get;
        [apply assert_superState_kind | apply getAsSuperState_unfold].
    + eapply typed_result_fails_as_get;
        [apply assert_clientState_kind | apply getAsClientState_unfold].
    + eapply typed_result_fails_as_get;
        [apply assert_peerState_kind | apply getAsPeerState_unfold].
    + eapply typed_result_fails_as_get;
        [apply assert_pieceState_kind | apply getAsPieceState_unfold].
Qed.

(** C2.  On a non-empty key [add] returns no error, the [get] that follows
    returns the value that was added, and when that value is a pointer to
    one of the four entity records the lookup typed for it returns that
    very pointer. *)
Theorem add_then_get_returns_value (m : stateSyncMap) key v :
  key ≠ EmptyString →
  (add key v m).1 = None ∧
  get key (after (add key v) m) = ((v, None), after (add key v) m) ∧
  (∀ p, v = ptrSuperState p →
     getAsSuperState key (after (add key v) m)
     = ((p, None), after (add key v) m)) ∧
  (∀ p, v = ptrClientState p →
     getAsClientState key (after (add key v) m)
     = ((p, None), after (add key v) m)) ∧
  (∀ p, v = ptrPeerState p →
     getAsPeerState key (after (add key v) m)
     = ((p, None), after (add key v) m)) ∧
  (∀ p, v = ptrPieceState p →
     getAsPieceState key (after (add key v) m)
     = ((p, None), after (add key v) m)).
Proof.
  intros Hkey%IsEmptyStr_false. unfold after.
  rewrite add_unfold, Hkey; simpl.
  rewrite get_unfold, getAsSuperState_unfold, getAsClientState_unfold,
    getAsPeerState_unfold, getAsPieceState_unfold.
  unfold typed_result, stateSyncMap in *. rewrite Hkey, lookup_insert_eq.
  repeat split; try done; by intros p ->.
Qed.

(** C4.  On a non-empty key, two [add]s in a row both return no error and
    the [get] after them returns the second value: the later write wins,
    whatever was stored before. *)
Theorem add_overwrites_last_writer_wins (m : stateSyncMap) key v1 v2 :
  key ≠ EmptyString →
  (let* e1 := add key v1 in
   let* e2 := add key v2 in
   let* r := get key in
   ret (e1, e2, r)) m
  = ((None, None, (v2, None)), <[key := v2]> m).
Proof.
  intros Hkey%IsEmptyStr_false. unfold bind, ret.
  rewrite add_unfold, Hkey. rewrite add_unfold, Hkey.
  rewrite get_unfold, Hkey. unfold stateSyncMap in *.
  rewrite lookup_insert_eq.
  by rewrite insert_insert_eq.
Qed.

(** C5.  On the empty key, [get], [remove] and [add] return an error whose
    cause is [ErrEmptyValue], hence not [ErrDataNotFound], in every state
    of the registry and for every value. *)
Theorem empty_key_is_rejected_as_empty (m : stateSyncMap) v :
  (get EmptyString m = ((nil, Some emptyKeyError), m) ∧
   remove EmptyString m = (Some emptyKeyError, m) ∧
   add EmptyString v m = (Some emptyKeyError, m)) ∧
  Cause emptyKeyError = ErrEmptyValue ∧
  Cause emptyKeyError ≠ ErrDataNotFound.
Proof.
  rewrite get_unfold, remove_unfold, add_unfold.
  assert (IsEmptyStr EmptyString = true) as -> by by apply IsEmptyStr_true.
  split_and!; [done | done | done | done | discriminate].
Qed.

(** C3, as the code has it.  A key that holds a value keeps that value,
    and so its variant kind, through every history of calls that neither
    adds nor removes under that key.  [add] itself never looks at what is
    stored: on a non-empty key it returns no error for any new value and
    the key then holds the new value, with the new value's kind. *)
Theorem kind_kept_until_next_add_or_remove (m : stateSyncMap) key v :
  m !! key = Some v →
  (∀ cs, never_writes key cs = true →
         after (perform_all cs) m !! key = Some v) ∧
  (∀ v', key ≠ EmptyString →
         add key v' m = (None, <[key := v']> m) ∧
         kind_of <$> (after (add key v') m !! key) = Some (kind_of v')).
Proof.
  intros Hm. split.
  - intros cs Hcs. by rewrite perform_all_frame.
  - intros v' Hkey%IsEmptyStr_false. unfold after.
    rewrite add_unfold, Hkey; simpl. unfold stateSyncMap in *.
    by rewrite lookup_insert_eq.
Qed.

(** C6.  Take a non-empty key and a registry that is either new or was
    just left by a successful [remove] of that key, and let any history
    of calls follow that never adds under the key.  Then [get] returns no
    value and an error whose cause is [ErrDataNotFound], and [remove]
    returns that error too; neither changes the registry. *)
Theorem absent_key_is_not_found (m0 : stateSyncMap) key cs :
  key ≠ EmptyString →
  m0 = newStateSyncMap ∨ (∃ m, remove key m = (None, m0)) →
  never_adds key cs = true →
  get key (after (perform_all cs) m0)
  = ((nil, Some (notFoundError key)), after (perform_all cs) m0) ∧
  remove key (after (perform_all cs) m0)
  = (Some (notFoundError key), after (perform_all cs) m0) ∧
  Cause (notFoundError key) = ErrDataNotFound.
Proof.
  intros Hkey Hm0 Hcs.
  assert (m0 !! key = None) as Habs.
  { destruct Hm0 as [-> | [m Hrm]]; [done|].
    rewrite remove_unfold in Hrm. apply IsEmptyStr_false in Hkey.
    rewrite Hkey in Hrm. destruct (m !! key); [|done].
    injection Hrm as <-. unfold stateSyncMap in *. apply lookup_delete_eq. }
  pose proof (perform_all_keeps_absent cs key m0 Hcs Habs) as Hafter.
  split_and!; [by apply get_absent | by apply remove_absent | done].
Qed.

(** C7.  [remove] on a non-empty key that is present returns no error and
    leaves the registry without that key.  From then on, through every
    history of calls that does not add under the key, [get] and the four
    typed lookups return no value and an error whose cause is
    [ErrDataNotFound]; an [add] under the key makes it found again. *)
Theorem remove_deletes_until_added_again (m : stateSyncMap) key v cs :
  key ≠ EmptyString → m !! key = Some v → never_adds key cs = true →
  remove key m = (None, delete key m) ∧
  get key (after (perform_all cs) (delete key m))
  = ((nil, Some (notFoundError key)),
     after (perform_all cs) (delete key m)) ∧
  getAsSuperState key (after (perform_all cs) (delete key m))
  = ((null, Some (Wrapf (notFoundError key) ("key: " ++ key))),
     after (perform_all cs) (delete key m)) ∧
  getAsClientState key (after (perform_all cs) (delete key m))
  = ((null, Some (Wrapf (notFoundError key) ("key: " ++ key))),
     after (perform_all cs) (delete key m)) ∧
  getAsPeerState key (after (perform_all cs) (delete key m))
  = ((null, Some (Wrapf (notFoundError key) ("key: " ++ key))),
     after (perform_all cs) (delete key m)) ∧
  getAsPieceState key (after (perform_all cs) (delete key m))
  = ((null, Some (Wrapf (notFoundError key) ("key: " ++ key))),
     after (perform_all cs) (delete key m)) ∧
  Cause (Wrapf (notFoundError key) ("key: " ++ key)) = ErrDataNotFound ∧
  (∀ v', (get key (after (add key v')
                     (after (perform_all cs) (delete key m)))).1
         = (v', None)).
Proof.
  intros Hkey Hm Hcs.
  assert (after (perform_all cs) (delete key m) !! key = None) as Hafter.
  { apply perform_all_keeps_absent; [done|].
    unfold stateSyncMap in *. apply lookup_delete_eq. }
  split_and!.
  - rewrite remove_unfold. apply IsEmptyStr_false in Hkey.
    by rewrite Hkey, Hm.
  - by apply get_absent.
  - by rewrite getAsSuperState_unfold, typed_result_absent.
  - by rewrite getAsClientState_unfold, typed_result_absent.
  - by rewrite getAsPeerState_unfold, typed_result_absent.
  - by rewrite getAsPieceState_unfold, typed_result_absent.
  - done.
  - intros v'. apply IsEmptyStr_false in Hkey. unfold after at 1.
    rewrite add_unfold, Hkey; simpl. rewrite get_unfold, Hkey.
    unfold stateSyncMap in *. by rewrite lookup_insert_eq.
Qed.

(** C8.  Whenever [add], [get] or [remove] returns an error, the registry
    after the call is the registry before it; the error's cause is
    [ErrEmptyValue] for [add], and [ErrEmptyValue] or [ErrDataNotFound]
    for [get] and [remove]. *)
Theorem failing_calls_change_nothing (m : stateSyncMap) key v :
  (∀ err, (add key v m).1 = Some err →
          Cause err = ErrEmptyValue ∧ after (add key v) m = m) ∧
  (∀ err, (get key m).1.2 = Some err →
          (Cause err = ErrEmptyValue ∨ Cause err = ErrDataNotFound) ∧
          after (get key) m = m) ∧
  (∀ err, (remove key m).1 = Some err →
          (Cause err = ErrEmptyValue ∨ Cause err = ErrDataNotFound) ∧
          after (remove key) m = m).
Proof.
  unfold after. rewrite add_unfold, get_unfold, remove_unfold.
  destruct (IsEmptyStr key); simpl.
  - split_and!; intros err [= <-]; auto.
  - split_and!; [done | |]; destruct (m !! key); simpl; try done;
      intros err [= <-]; auto.
Qed.

(** C9.  On a non-empty key [add] returns no error for any value at all,
    and [get] then returns that value without looking at its kind.  Values
    of a type other than the four pointer types, and the nil interface,
    have no variant kind; for a value without one, each of the four typed
    lookups returns no pointer and an error whose cause is
    [ErrConvertFailed]. *)
Theorem store_takes_any_value (m : stateSyncMap) key v :
  key ≠ EmptyString →
  add key v m = (None, <[key := v]> m) ∧
  get key (<[key := v]> m) = ((v, None), <[key := v]> m) ∧
  (∀ x, kind_of (otherValue x) = None) ∧ kind_of nil = None ∧
  (kind_of v = None →
   getAsSuperState key (<[key := v]> m)
   = ((null, Some (convertFailedError key v)), <[key := v]> m) ∧
   getAsClientState key (<[key := v]> m)
   = ((null, Some (convertFailedError key v)), <[key := v]> m) ∧
   getAsPeerState key (<[key := v]> m)
   = ((null, Some (convertFailedError key v)), <[key := v]> m) ∧
   getAsPieceState key (<[key := v]> m)
   = ((null, Some (convertFailedError key v)), <[key := v]> m) ∧
   Cause (convertFailedError key v) = ErrConvertFailed).
Proof.
  intros Hkey%IsEmptyStr_false.
  rewrite add_unfold, get_unfold, getAsSuperState_unfold,
    getAsClientState_unfold, getAsPeerState_unfold, getAsPieceState_unfold.
  unfold typed_result, stateSyncMap in *. rewrite Hkey, lookup_insert_eq.
  split_and!; try done.
  intros Hv. by destruct v.
Qed.

(** C10.  [get] and the four typed lookups leave the registry as they
    found it, for every key and every registry, whatever they return. *)
Theorem lookups_leave_store_alone (m : stateSyncMap) key :
  after (get key) m = m ∧
  after (getAsSuperState key) m = m ∧
  after (getAsClientState key) m = m ∧
  after (getAsPeerState key) m = m ∧
  after (getAsPieceState key) m = m.
Proof.
  unfold after.
  rewrite get_unfold, getAsSuperState_unfold, getAsClientState_unfold,
    getAsPeerState_unfold, getAsPieceState_unfold.
  split_and!; try done.
  destruct (IsEmptyStr key); [done|]. by destruct (m !! key).
Qed.

(** ** Further properties of the methods *)

Lemma after_seq {A B : Type} (c : M stateSyncMap A) (k : M stateSyncMap B)
    (m : stateSyncMap) :
  after (c ;; k) m = after k (after c m).
Proof. unfold after, bind. by destruct (c m). Qed.

Lemma after_perform_all_app cs cs' (m : stateSyncMap) :
  after (perform_all (cs ++ cs')) m
  = after (perform_all cs') (after (perform_all cs) m).
Proof.
  revert m. induction cs as [|c cs IH]; intros m; [done|].
  rewrite <- app_comm_cons, !after_perform_all_cons. apply IH.
Qed.

(** What the five lookups return under a key depends on the registry only
    through what that key holds. *)
Lemma lookups_depend_on_key (m m' : stateSyncMap) key :
  m !! key = m' !! key →
  (get key m).1 = (get key m').1 ∧
  (getAsSuperState key m).1 = (getAsSuperState key m').1 ∧
  (getAsClientState key m).1 = (getAsClientState key m').1 ∧
  (getAsPeerState key m).1 = (getAsPeerState key m').1 ∧
  (getAsPieceState key m).1 = (getAsPieceState key m').1.
Proof.
  intros Hm.
  rewrite !get_unfold, !getAsSuperState_unfold, !getAsClientState_unfold,
    !getAsPeerState_unfold, !getAsPieceState_unfold.
  unfold typed_result. rewrite Hm.
  destruct (IsEmptyStr key); [done|]. by destruct (m' !! key).
Qed.

(** X1.  Keys are isolated from one another: through any history of calls
    that neither adds nor removes under [key] (writes under other keys and
    lookups of any key are allowed), [get] and the four typed lookups under
    [key] return exactly what they returned before. *)
Theorem other_keys_do_not_interfere (m : stateSyncMap) key cs :
  never_writes key cs = true →
  (get key (after (perform_all cs) m)).1 = (get key m).1 ∧
  (getAsSuperState key (after (perform_all cs) m)).1
  = (getAsSuperState key m).1 ∧
  (getAsClientState key (after (perform_all cs) m)).1
  = (getAsClientState key m).1 ∧
  (getAsPeerState key (after (perform_all cs) m)).1
  = (getAsPeerState key m).1 ∧
  (getAsPieceState key (after (perform_all cs) m)).1
  = (getAsPieceState key m).1.
Proof.
  intros Hcs. apply lookups_depend_on_key. by apply perform_all_frame.
Qed.


(** X3.  [get] is sound and complete for the registry's contents: it
    returns a value with no error exactly when the key is non-empty and
    holds that value; whenever it returns an error, the value it returns
    beside it is the nil interface. *)
Theorem get_returns_what_is_stored (m : stateSyncMap) key :
  (∀ v, (get key m).1 = (v, None) ↔ key ≠ EmptyString ∧ m !! key = Some v) ∧
  (∀ err, (get key m).1.2 = Some err → (get key m).1.1 = nil).
Proof.
  rewrite get_unfold.
  destruct (IsEmptyStr key) eqn:Hkey.
  - apply IsEmptyStr_true in Hkey. split; [|done].
    intros v. split; [done | by intros [? _]].
  - apply IsEmptyStr_false in Hkey.
    destruct (m !! key) as [w|]; simpl.
    + split; [|done]. intros v. split.
      * by intros [= ->].
      * by intros [_ [= ->]].
    + split; [|done]. intros v. split; [done | by intros [_ ?]].
Qed.

Lemma typed_result_succeeds {T : Type} (assertion : value → pointer T * bool)
    (inj : pointer T → value) key (m : stateSyncMap) p :
  (∀ v q, assertion v = (q, true) ↔ v = inj q) →
  typed_result assertion key m = (p, None)
  ↔ key ≠ EmptyString ∧ m !! key = Some (inj p).
Proof.
  intros Hinj. unfold typed_result.
  destruct (IsEmptyStr key) eqn:Hkey.
  - apply IsEmptyStr_true in Hkey. split; [done | by intros [? _]].
  - apply IsEmptyStr_false in Hkey.
    destruct (m !! key) as [v|]; [|split; [done | by intros [_ ?]]].
    destruct (assertion v) as [q ok] eqn:Ha; simpl.
    destruct ok.
    + apply Hinj in Ha as ->. split.
      * by intros [= ->].
      * intros [_ [= Heq]]. assert (assertion (inj q) = (p, true)) as Hp
          by (rewrite Heq; by apply Hinj).
        assert (assertion (inj q) = (q, true)) as Hq by by apply Hinj.
        congruence.
    + split; [done|]. intros [_ [= ->]].
      assert (assertion (inj p) = (p, true)) as Hp by by apply Hinj.
      congruence.
Qed.

(** X4.  Each typed lookup is sound and complete: it returns a pointer with
    no error exactly when the key is non-empty and holds that pointer under
    the lookup's own dynamic type (a typed nil pointer included). *)
Theorem typed_lookups_return_what_is_stored (m : stateSyncMap) key :
  (∀ p, (getAsSuperState key m).1 = (p, None)
        ↔ key ≠ EmptyString ∧ m !! key = Some (ptrSuperState p)) ∧
  (∀ p, (getAsClientState key m).1 = (p, None)
        ↔ key ≠ EmptyString ∧ m !! key = Some (ptrClientState p)) ∧
  (∀ p, (getAsPeerState key m).1 = (p, None)
        ↔ key ≠ EmptyString ∧ m !! key = Some (ptrPeerState p)) ∧
  (∀ p, (getAsPieceState key m).1 = (p, None)
        ↔ key ≠ EmptyString ∧ m !! key = Some (ptrPieceState p)).
Proof.
  rewrite getAsSuperState_unfold, getAsClientState_unfold,
    getAsPeerState_unfold, getAsPieceState_unfold; simpl.
  split_and!; intros p; apply typed_result_succeeds;
    intros [] q; simpl; split; congruence.
Qed.

(** X5.  At most one typed lookup can succeed on a key: when one of them
    returns no error, each of the other three returns an error whose cause
    is [ErrConvertFailed]. *)
Theorem typed_lookups_exclude_each_other (m : stateSyncMap) key :
  ((getAsSuperState key m).1.2 = None →
   failure (getAsClientState key m).1 = Some ErrConvertFailed ∧
   failure (getAsPeerState key m).1 = Some ErrConvertFailed ∧
   failure (getAsPieceState key m).1 = Some ErrConvertFailed) ∧
  ((getAsClientState key m).1.2 = None →
   failure (getAsSuperState key m).1 = Some ErrConvertFailed ∧
   failure (getAsPeerState key m).1 = Some ErrConvertFailed ∧
   failure (getAsPieceState key m).1 = Some ErrConvertFailed) ∧
  ((getAsPeerState key m).1.2 = None →
   failure (getAsSuperState key m).1 = Some ErrConvertFailed ∧
   failure (getAsClientState key m).1 = Some ErrConvertFailed ∧
   failure (getAsPieceState key m).1 = Some ErrConvertFailed) ∧
  ((getAsPieceState key m).1.2 = None →
   failure (getAsSuperState key m).1 = Some ErrConvertFailed ∧
   failure (getAsClientState key m).1 = Some ErrConvertFailed ∧
   failure (getAsPeerState key m).1 = Some ErrConvertFailed).
Proof.
  rewrite getAsSuperState_unfold, getAsClientState_unfold,
    getAsPeerState_unfold, getAsPieceState_unfold; simpl.
  unfold typed_result, failure.
  destruct (IsEmptyStr key); [done|].
  destruct (m !! key) as [v|]; [|done].
  destruct v; simpl; done.
Qed.

(** X6.  The empty key never gets into the registry: if it is absent, it is
    still absent after any history of calls; in particular it is absent
    after any history that starts from a new registry. *)
Theorem empty_key_never_stored cs :
  (∀ m : stateSyncMap, m !! EmptyString = None →
     after (perform_all cs) m !! EmptyString = None) ∧
  after (perform_all cs) newStateSyncMap !! EmptyString = None.
Proof.
  assert (∀ m0 : stateSyncMap, m0 !! EmptyString = None →
            after (perform_all cs) m0 !! EmptyString = None) as Hinv.
  { induction cs as [|c cs IH]; intros m0 Hm0; [done|].
    rewrite after_perform_all_cons. apply IH.
    rewrite after_perform. unfold stateSyncMap in *.
    destruct c as [key v|?|?|?|?|?|key]; try done.
    - destruct (IsEmptyStr key) eqn:Hkey; [done|].
      apply IsEmptyStr_false in Hkey. by rewrite lookup_insert_ne.
    - destruct (IsEmptyStr key) eqn:Hkey; [done|].
      apply IsEmptyStr_false in Hkey. by rewrite lookup_delete_ne. }
  split; [exact Hinv | by apply Hinv].
Qed.

(** X7.  [add] under a fresh non-empty key followed by [remove] of that key
    is a round trip: both return no error and the registry is back to what
    it was. *)
Theorem add_then_remove_restores (m : stateSyncMap) key v :
  key ≠ EmptyString → m !! key = None →
  (let* e1 := add key v in
   let* e2 := remove key in
   ret (e1, e2)) m
  = ((None, None), m).
Proof.
  intros Hkey%IsEmptyStr_false Hm. unfold bind, ret.
  rewrite add_unfold, Hkey, remove_unfold, Hkey.
  unfold stateSyncMap in *. rewrite lookup_insert_eq.
  by rewrite delete_insert_id.
Qed.

(** X8.  [remove] of a present non-empty key followed by [add] of the value
    it held is a round trip as well. *)
Theorem remove_then_add_restores (m : stateSyncMap) key v :
  key ≠ EmptyString → m !! key = Some v →
  (let* e1 := remove key in
   let* e2 := add key v in
   ret (e1, e2)) m
  = ((None, None), m).
Proof.
  intros Hkey%IsEmptyStr_false Hm. unfold bind, ret.
  rewrite remove_unfold, Hkey, Hm, add_unfold, Hkey.
  unfold stateSyncMap in *. by rewrite insert_delete_id.
Qed.

(** X9.  Calls made under different keys commute: performed in either
    order they leave the same registry. *)
Theorem calls_on_different_keys_commute (m : stateSyncMap) c1 c2 :
  key_of c1 ≠ key_of c2 →
  after (perform c1 ;; perform c2) m = after (perform c2 ;; perform c1) m.
Proof.
  intros Hne. rewrite !after_seq, !after_perform.
  unfold stateSyncMap in *.
  destruct c1 as [k1 v1|?|?|?|?|?|k1], c2 as [k2 v2|?|?|?|?|?|k2];
    simpl in Hne; try done;
    destruct (IsEmptyStr k1), (IsEmptyStr k2); try done.
  - by apply insert_insert_ne.
  - by rewrite delete_insert_ne.
  - by rewrite delete_insert_ne.
  - apply delete_delete.
Qed.

(** X10.  The last write under a key decides what the key holds, whatever
    came before it: after any history, an [add] under a non-empty key, and
    any further calls that neither add nor remove under that key, [get]
    returns the added value; after a [remove] under the key and any
    further calls that do not add under it, the key is absent. *)
Theorem last_write_decides (m : stateSyncMap) key v cs cs' :
  key ≠ EmptyString →
  (never_writes key cs' = true →
   (get key (after (perform_all (cs ++ call_add key v :: cs')) m)).1
   = (v, None)) ∧
  (never_adds key cs' = true →
   (get key (after (perform_all (cs ++ call_remove key :: cs')) m)).1
   = (nil, Some (notFoundError key))).
Proof.
  intros Hkey. pose proof Hkey as Hk%IsEmptyStr_false.
  rewrite !after_perform_all_app, !after_perform_all_cons, !after_perform, Hk.
  split; intros Hcs.
  - rewrite get_unfold, Hk, perform_all_frame by done.
    unfold stateSyncMap in *. by rewrite lookup_insert_eq.
  - rewrite get_absent; [done | done |].
    apply perform_all_keeps_absent; [done|].
    unfold stateSyncMap in *. apply lookup_delete_eq.
Qed.

(** X11.  Only [add] and [remove] matter to the registry: striking every
    lookup out of a history leaves the resulting registry the same. *)
Theorem lookups_can_be_struck_out (m : stateSyncMap) cs :
  after (perform_all cs) m = after (perform_all (List.filter writes cs)) m.
Proof.
  revert m. induction cs as [|c cs IH]; intros m; [done|].
  destruct c; cbn [List.filter writes];
    rewrite !after_perform_all_cons, !after_perform; apply IH.
Qed.

(** X12.  The registry holds nothing that was not put there: whatever a key
    holds after a history of calls, it either held before, or the key is
    non-empty and some [add] in the history stored that value under it. *)
Theorem stored_values_come_from_add (m : stateSyncMap) cs key v :
  after (perform_all cs) m !! key = Some v →
  m !! key = Some v ∨ (key ≠ EmptyString ∧ call_add key v ∈ cs).
Proof.
  revert m. induction cs as [|c cs IH]; intros m Hv; [by left|].
  rewrite after_perform_all_cons in Hv.
  destruct (IH _ Hv) as [Hc | [Hkey Hin]].
  - rewrite after_perform in Hc. unfold stateSyncMap in *.
    destruct c as [k w|?|?|?|?|?|k]; try (by left).
    + destruct (IsEmptyStr k) eqn:Hk; [by left|].
      apply IsEmptyStr_false in Hk.
      apply lookup_insert_Some in Hc as [[-> ->] | [_ Hm]]; [|by left].
      right. split; [done | by left].
    + destruct (IsEmptyStr k); [by left|].
      apply lookup_delete_Some in Hc as [_ Hm]. by left.
  - right. split; [done | by right].
Qed.

(** X13.  How the number of entries moves: [add] under a non-empty key
    grows the registry by one entry when the key was absent and leaves the
    count alone when it was present; a [remove] that returns no error
    shrinks it by exactly one, and one that returns an error leaves the
    count alone. *)
Theorem entry_count (m : stateSyncMap) key v :
  (key ≠ EmptyString →
   size (after (add key v) m)
   = match m !! key with Some _ => size m | None => S (size m) end) ∧
  ((remove key m).1 = None → S (size (after (remove key) m)) = size m) ∧
  ((remove key m).1 ≠ None → size (after (remove key) m) = size m).
Proof.
  unfold after. rewrite add_unfold, remove_unfold.
  destruct (IsEmptyStr key) eqn:Hkey; simpl.
  - apply IsEmptyStr_true in Hkey. done.
  - unfold stateSyncMap in *.
    destruct (m !! key) as [w|] eqn:Hm; simpl.
    + split_and!; [| |done].
      * intros _. by apply map_size_insert_Some.
      * intros _. rewrite map_size_delete_Some by done.
        assert (size m ≠ 0) as Hsz.
        { intros Hz. apply map_size_empty_inv in Hz. by subst. }
        lia.
    + split_and!; [|done|done].
      intros _. by apply map_size_insert_None.
Qed.

(** X14.  No typed lookup ever returns a pointer together with an error:
    whenever one of the four returns an error, the pointer beside it is
    nil, whichever of the three failures it was. *)
Theorem typed_lookups_return_nil_on_error (m : stateSyncMap) key :
  (∀ err, (getAsSuperState key m).1.2 = Some err →
          (getAsSuperState key m).1.1 = null) ∧
  (∀ err, (getAsClientState key m).1.2 = Some err →
          (getAsClientState key m).1.1 = null) ∧
  (∀ err, (getAsPeerState key m).1.2 = Some err →
          (getAsPeerState key m).1.1 = null) ∧
  (∀ err, (getAsPieceState key m).1.2 = Some err →
          (getAsPieceState key m).1.1 = null).
Proof.
  rewrite getAsSuperState_unfold, getAsClientState_unfold,
    getAsPeerState_unfold, getAsPieceState_unfold; simpl.
  unfold typed_result.
  destruct (IsEmptyStr key); [done|].
  destruct (m !! key) as [v|]; [|done].
  destruct v; simpl; done.
Qed.

End StateSyncMap.

Arguments nil {superState clientState peerState pieceState other}.
Arguments ptrSuperState {superState clientState peerState pieceState other} p.
Arguments ptrClientState {superState clientState peerState pieceState other} p.
Arguments ptrPeerState {superState clientState peerState pieceState other} p.
Arguments ptrPieceState {superState clientState peerState pieceState other} p.
Arguments otherValue {superState clientState peerState pieceState other} x.
Arguments kind_of {superState clientState peerState pieceState other} v.
Arguments add {superState clientState peerState pieceState other} key v _.
Arguments get {superState clientState peerState pieceState other} key _.
Arguments remove {superState clientState peerState pieceState other} key _.
Arguments getAsSuperState {superState clientState peerState pieceState other}
  fmt_v key _.
Arguments getAsClientState {superState clientState peerState pieceState other}
  fmt_v key _.
Arguments getAsPeerState {superState clientState peerState pieceState other}
  fmt_v key _.
Arguments getAsPieceState {superState clientState peerState pieceState other}
  fmt_v key _.
Arguments call_add {superState clientState peerState pieceState other} key v.
Arguments call_get {superState clientState peerState pieceState other} key.
Arguments call_getAsPeerState
  {superState clientState peerState pieceState other} key.
Arguments call_remove {superState clientState peerState pieceState other} key.
Arguments perform_all {superState clientState peerState pieceState other}
  fmt_v cs _.
Arguments perform {superState clientState peerState pieceState other}
  fmt_v c _.
Arguments key_of {superState clientState peerState pieceState other} c.
Arguments writes {superState clientState peerState pieceState other} c.
Arguments never_adds {superState clientState peerState pieceState other} key cs.
Arguments never_writes {superState clientState peerState pieceState other}
  key cs.
Arguments after {superState clientState peerState pieceState other A} c m.
Arguments convertFailedError
  {superState clientState peerState pieceState other} fmt_v key v.

(** ** The claims at work on a small registry

    The entity records are instantiated by [unit] (their contents never
    matter), foreign values by integers. *)

Section Instances.
Import errortypes errors stringutils.

Local Abbreviation store0 := (newStateSyncMap unit unit unit unit Z).
Local Abbreviation show := (λ _ : value unit unit unit unit Z, "<v>").
Local Abbreviation history := (list (call unit unit unit unit Z)).

Lemma typed_lookups_fail_as_get_or_on_mismatch_witness :
  ("piece-3" ≠ EmptyString ∧
   (<["piece-3" := ptrPieceState (ref 3)]> store0) !! "piece-3"
   = Some (ptrPieceState (ref 3))) ∧
  getAsPeerState show "piece-3" (<["piece-3" := ptrPieceState (ref 3)]> store0)
  = ((null, Some (withMessage (sentinel ErrConvertFailed)
                    "key piece-3: <v>")),
     <["piece-3" := ptrPieceState (ref 3)]> store0) ∧
  failure (getAsPieceState show EmptyString store0).1 = Some ErrEmptyValue ∧
  failure (getAsClientState show "nobody" store0).1 = Some ErrDataNotFound.
Proof.
  assert ("piece-3" ≠ EmptyString) as Hkey by discriminate.
  assert ((<["piece-3" := ptrPieceState (ref 3)]> store0) !! "piece-3"
          = Some (ptrPieceState (ref 3))) as Hm by (vm_compute; reflexivity).
  split; [by split|].
  destruct (typed_lookups_fail_as_get_or_on_mismatch
              unit unit unit unit Z show)
    as (Hpiece & _ & Hclient & _ & Hpieces).
  split_and!.
  - exact (proj1 (Hpiece _ "piece-3" (ref 3) Hkey Hm)).
  - exact (proj1 (proj2 (Hpieces store0 EmptyString)) eq_refl).
  - refine (proj1 (proj2 (proj2 (Hclient store0 "nobody"))) _ _).
    + discriminate.
    + vm_compute; reflexivity.
Defined.

Lemma add_then_get_returns_value_witness :
  "peer-1" ≠ EmptyString ∧
  (add "peer-1" (ptrPeerState (ref 7)) store0).1 = None ∧
  get "peer-1" (after (add "peer-1" (ptrPeerState (ref 7))) store0)
  = ((ptrPeerState (ref 7), None),
     after (add "peer-1" (ptrPeerState (ref 7))) store0) ∧
  getAsPeerState show "peer-1"
    (after (add "peer-1" (ptrPeerState (ref 7))) store0)
  = ((ref 7, None), after (add "peer-1" (ptrPeerState (ref 7))) store0).
Proof.
  assert ("peer-1" ≠ EmptyString) as Hkey by discriminate.
  split; [done|].
  destruct (add_then_get_returns_value unit unit unit unit Z show
              store0 "peer-1" (ptrPeerState (ref 7)) Hkey)
    as (Hadd & Hget & _ & _ & Hpeer & _).
  split_and!; [exact Hadd | exact Hget | exact (Hpeer (ref 7) eq_refl)].
Defined.

(** C3 as the spec words it fails: the key holds a pointer to a
    [peerState]; an [add] of a pointer to a [pieceState] under the same key
    returns no error, and the key then holds the [pieceState] pointer. *)
Lemma mixed_kind_overwrite_is_not_signalled :
  (<["peer-1" := ptrPeerState (ref 1)]> store0) !! "peer-1"
  = Some (ptrPeerState (ref 1)) ∧
  kind_of (ptrPieceState (ref 2) : value unit unit unit unit Z)
  ≠ kind_of (ptrPeerState (ref 1) : value unit unit unit unit Z) ∧
  (add "peer-1" (ptrPieceState (ref 2))
     (<["peer-1" := ptrPeerState (ref 1)]> store0)).1 = None ∧
  kind_of <$> (after (add "peer-1" (ptrPieceState (ref 2)))
                 (<["peer-1" := ptrPeerState (ref 1)]> store0) !! "peer-1")
  = Some (Some PieceStateKind).
Proof. split_and!; [by vm_compute | discriminate | done | by vm_compute]. Qed.

Lemma kind_kept_until_next_add_or_remove_witness :
  (<["peer-1" := ptrPeerState (ref 1)]> store0) !! "peer-1"
  = Some (ptrPeerState (ref 1)) ∧
  after (perform_all show [call_get "peer-1"; call_add "peer-2" nil;
                           call_remove "peer-2"; call_getAsPeerState "peer-1"])
    (<["peer-1" := ptrPeerState (ref 1)]> store0) !! "peer-1"
  = Some (ptrPeerState (ref 1)) ∧
  add "peer-1" (ptrPieceState (ref 2))
    (<["peer-1" := ptrPeerState (ref 1)]> store0)
  = (None, <["peer-1" := ptrPieceState (ref 2)]>
             (<["peer-1" := ptrPeerState (ref 1)]> store0)).
Proof.
  assert ((<["peer-1" := ptrPeerState (ref 1)]> store0) !! "peer-1"
          = Some (ptrPeerState (ref 1))) as Hm by (vm_compute; reflexivity).
  split; [exact Hm|].
  destruct (kind_kept_until_next_add_or_remove unit unit unit unit Z show
              _ "peer-1" _ Hm) as [Hkeep Hadd].
  split.
  - apply Hkeep. vm_compute; reflexivity.
  - apply (Hadd (ptrPieceState (ref 2))). discriminate.
Defined.

Lemma add_overwrites_last_writer_wins_witness :
  "task-9" ≠ EmptyString ∧
  (let* e1 := add "task-9" (ptrSuperState (ref 1)) in
   let* e2 := add "task-9" (otherValue 5%Z) in
   let* r := get "task-9" in
   ret (e1, e2, r)) store0
  = ((None, None, (otherValue 5%Z, None)),
     <["task-9" := otherValue 5%Z]> store0).
Proof.
  split; [discriminate|].
  apply (add_overwrites_last_writer_wins unit unit unit unit Z).
  discriminate.
Defined.

Lemma absent_key_is_not_found_witness :
  ("peer-1" ≠ EmptyString ∧
   (∃ m, remove "peer-1" m = (None, store0)) ∧
   never_adds "peer-1" ([call_add "peer-2" (otherValue 4%Z);
                         call_get "peer-1"; call_remove "peer-1"] : history)
   = true) ∧
  get "peer-1"
    (after (perform_all show [call_add "peer-2" (otherValue 4%Z);
                              call_get "peer-1"; call_remove "peer-1"])
       store0)
  = ((nil, Some (withMessage (sentinel ErrDataNotFound) "key: peer-1")),
     <["peer-2" := otherValue 4%Z]> store0) ∧
  remove "peer-1"
    (after (perform_all show [call_add "peer-2" (otherValue 4%Z);
                              call_get "peer-1"; call_remove "peer-1"])
       store0)
  = (Some (withMessage (sentinel ErrDataNotFound) "key: peer-1"),
     <["peer-2" := otherValue 4%Z]> store0).
Proof.
  assert ("peer-1" ≠ EmptyString) as Hkey by discriminate.
  assert (∃ m, remove "peer-1" m = (None, store0)) as Hrm.
  { exists (<["peer-1" := nil]> store0). vm_compute; reflexivity. }
  assert (never_adds "peer-1"
            ([call_add "peer-2" (otherValue 4%Z);
              call_get "peer-1"; call_remove "peer-1"] : history) = true)
    as Hcs by (vm_compute; reflexivity).
  split; [done|].
  destruct (absent_key_is_not_found unit unit unit unit Z show
              store0 "peer-1" _ Hkey (or_intror Hrm) Hcs)
    as (Hget & Hremove & _).
  split; [exact Hget | exact Hremove].
Defined.

Lemma remove_deletes_until_added_again_witness :
  ("peer-1" ≠ EmptyString ∧
   (<["peer-1" := ptrPeerState (ref 1)]> store0) !! "peer-1"
   = Some (ptrPeerState (ref 1)) ∧
   never_adds "peer-1"
     ([call_get "peer-1"; call_add "peer-2" nil] : history) = true) ∧
  remove "peer-1" (<["peer-1" := ptrPeerState (ref 1)]> store0)
  = (None, delete "peer-1" (<["peer-1" := ptrPeerState (ref 1)]> store0)) ∧
  (getAsPeerState show "peer-1"
     (after (perform_all show [call_get "peer-1"; call_add "peer-2" nil])
        (delete "peer-1" (<["peer-1" := ptrPeerState (ref 1)]> store0)))).1
  = (null, Some (withMessage
                   (withMessage (sentinel ErrDataNotFound) "key: peer-1")
                   "key: peer-1")).
Proof.
  assert ("peer-1" ≠ EmptyString) as Hkey by discriminate.
  assert ((<["peer-1" := ptrPeerState (ref 1)]> store0) !! "peer-1"
          = Some (ptrPeerState (ref 1))) as Hm by (vm_compute; reflexivity).
  assert (never_adds "peer-1"
            ([call_get "peer-1"; call_add "peer-2" nil] : history) = true)
    as Hcs by (vm_compute; reflexivity).
  split; [done|].
  destruct (remove_deletes_until_added_again unit unit unit unit Z show
              _ "peer-1" _ _ Hkey Hm Hcs)
    as (Hremove & _ & _ & _ & Hpeer & _).
  split; [exact Hremove | by rewrite Hpeer].
Defined.

Lemma failing_calls_change_nothing_witness :
  (add EmptyString nil (<["peer-1" := ptrPeerState (ref 1)]> store0)).1
  = Some emptyKeyError ∧
  after (add EmptyString nil) (<["peer-1" := ptrPeerState (ref 1)]> store0)
  = <["peer-1" := ptrPeerState (ref 1)]> store0 ∧
  (remove "peer-2" (<["peer-1" := ptrPeerState (ref 1)]> store0)).1
  = Some (notFoundError "peer-2") ∧
  after (remove "peer-2") (<["peer-1" := ptrPeerState (ref 1)]> store0)
  = <["peer-1" := ptrPeerState (ref 1)]> store0.
Proof.
  assert ((add EmptyString nil
             (<["peer-1" := ptrPeerState (ref 1)]> store0)).1
          = Some emptyKeyError) as Hadd by reflexivity.
  assert ((remove "peer-2"
             (<["peer-1" := ptrPeerState (ref 1)]> store0)).1
          = Some (notFoundError "peer-2")) as Hrm
    by (vm_compute; reflexivity).
  split_and!; [exact Hadd | | exact Hrm |].
  - exact (proj2 (proj1 (failing_calls_change_nothing
                           unit unit unit unit Z _ EmptyString nil) _ Hadd)).
  - exact (proj2 (proj2 (proj2 (failing_calls_change_nothing
                                  unit unit unit unit Z _ "peer-2" nil))
                    _ Hrm)).
Defined.

Lemma store_takes_any_value_witness :
  "cfg" ≠ EmptyString ∧
  add "cfg" (otherValue 42%Z) store0
  = (None, <["cfg" := otherValue 42%Z]> store0) ∧
  get "cfg" (<["cfg" := otherValue 42%Z]> store0)
  = ((otherValue 42%Z, None), <["cfg" := otherValue 42%Z]> store0) ∧
  getAsSuperState show "cfg" (<["cfg" := otherValue 42%Z]> store0)
  = ((null, Some (convertFailedError show "cfg" (otherValue 42%Z))),
     <["cfg" := otherValue 42%Z]> store0).
Proof.
  assert ("cfg" ≠ EmptyString) as Hkey by discriminate.
  split; [done|].
  destruct (store_takes_any_value unit unit unit unit Z show
              store0 "cfg" (otherValue 42%Z) Hkey)
    as (Hadd & Hget & _ & _ & Htyped).
  split_and!; [exact Hadd | exact Hget | exact (proj1 (Htyped eq_refl))].
Defined.

(** *** The further properties at work *)

Lemma other_keys_do_not_interfere_witness :
  never_writes "peer-1" ([call_add "peer-2" nil; call_remove "peer-2";
                          call_get "peer-1"] : history) = true ∧
  (getAsPeerState show "peer-1"
     (after (perform_all show [call_add "peer-2" nil; call_remove "peer-2";
                               call_get "peer-1"])
        (<["peer-1" := ptrPeerState (ref 1)]> store0))).1
  = (getAsPeerState show "peer-1"
       (<["peer-1" := ptrPeerState (ref 1)]> store0)).1.
Proof.
  assert (never_writes "peer-1"
            ([call_add "peer-2" nil; call_remove "peer-2";
              call_get "peer-1"] : history) = true) as Hcs
    by (vm_compute; reflexivity).
  split; [exact Hcs|].
  destruct (other_keys_do_not_interfere unit unit unit unit Z show
              (<["peer-1" := ptrPeerState (ref 1)]> store0) "peer-1" _ Hcs)
    as (_ & _ & _ & Hpeer & _).
  exact Hpeer.
Defined.


Lemma get_returns_what_is_stored_witness :
  ("task-9" ≠ EmptyString ∧
   (<["task-9" := otherValue 5%Z]> store0) !! "task-9"
   = Some (otherValue 5%Z)) ∧
  (get "task-9" (<["task-9" := otherValue 5%Z]> store0)).1
  = (otherValue 5%Z, None).
Proof.
  assert ("task-9" ≠ EmptyString ∧
          (<["task-9" := otherValue 5%Z]> store0) !! "task-9"
          = Some (otherValue 5%Z)) as Hpre.
  { split; [discriminate | vm_compute; reflexivity]. }
  split; [exact Hpre|].
  exact (proj2 (proj1 (get_returns_what_is_stored unit unit unit unit Z
                         (<["task-9" := otherValue 5%Z]> store0) "task-9")
                  (otherValue 5%Z)) Hpre).
Defined.

Lemma typed_lookups_return_what_is_stored_witness :
  ("piece-0" ≠ EmptyString ∧
   (<["piece-0" := ptrPieceState null]> store0) !! "piece-0"
   = Some (ptrPieceState null)) ∧
  (getAsPieceState show "piece-0"
     (<["piece-0" := ptrPieceState null]> store0)).1
  = (null, None).
Proof.
  assert ("piece-0" ≠ EmptyString ∧
          (<["piece-0" := ptrPieceState null]> store0) !! "piece-0"
          = Some (ptrPieceState null)) as Hpre.
  { split; [discriminate | vm_compute; reflexivity]. }
  split; [exact Hpre|].
  destruct (typed_lookups_return_what_is_stored unit unit unit unit Z show
              (<["piece-0" := ptrPieceState null]> store0) "piece-0")
    as (_ & _ & _ & Hpiece).
  exact (proj2 (Hpiece null) Hpre).
Defined.

Lemma typed_lookups_exclude_each_other_witness :
  (getAsPeerState show "peer-1"
     (<["peer-1" := ptrPeerState (ref 1)]> store0)).1.2 = None ∧
  failure (getAsPieceState show "peer-1"
             (<["peer-1" := ptrPeerState (ref 1)]> store0)).1
  = Some ErrConvertFailed.
Proof.
  assert ((getAsPeerState show "peer-1"
             (<["peer-1" := ptrPeerState (ref 1)]> store0)).1.2 = None)
    as Hok by (vm_compute; reflexivity).
  split; [exact Hok|].
  destruct (typed_lookups_exclude_each_other unit unit unit unit Z show
              (<["peer-1" := ptrPeerState (ref 1)]> store0) "peer-1")
    as (_ & _ & Hpeer & _).
  exact (proj2 (proj2 (Hpeer Hok))).
Defined.

Lemma empty_key_never_stored_witness :
  (<["peer-1" := ptrPeerState (ref 1)]> store0) !! EmptyString = None ∧
  after (perform_all show [call_add EmptyString nil; call_add "a" nil;
                           call_remove EmptyString])
    (<["peer-1" := ptrPeerState (ref 1)]> store0) !! EmptyString
  = None.
Proof.
  assert ((<["peer-1" := ptrPeerState (ref 1)]> store0) !! EmptyString = None)
    as Hm by (vm_compute; reflexivity).
  split; [exact Hm|].
  exact (proj1 (empty_key_never_stored unit unit unit unit Z show _) _ Hm).
Defined.

Lemma add_then_remove_restores_witness :
  ("peer-1" ≠ EmptyString ∧
   (<["peer-2" := nil]> store0) !! "peer-1" = None) ∧
  (let* e1 := add "peer-1" (ptrPeerState (ref 1)) in
   let* e2 := remove "peer-1" in
   ret (e1, e2)) (<["peer-2" := nil]> store0)
  = ((None, None), <["peer-2" := nil]> store0).
Proof.
  assert ("peer-1" ≠ EmptyString) as Hkey by discriminate.
  assert ((<["peer-2" := nil]> store0) !! "peer-1" = None) as Hm
    by (vm_compute; reflexivity).
  split; [by split|].
  exact (add_then_remove_restores unit unit unit unit Z _ "peer-1"
           (ptrPeerState (ref 1)) Hkey Hm).
Defined.

Lemma remove_then_add_restores_witness :
  ("peer-1" ≠ EmptyString ∧
   (<["peer-1" := ptrPeerState (ref 1)]> store0) !! "peer-1"
   = Some (ptrPeerState (ref 1))) ∧
  (let* e1 := remove "peer-1" in
   let* e2 := add "peer-1" (ptrPeerState (ref 1)) in
   ret (e1, e2)) (<["peer-1" := ptrPeerState (ref 1)]> store0)
  = ((None, None), <["peer-1" := ptrPeerState (ref 1)]> store0).
Proof.
  assert ("peer-1" ≠ EmptyString) as Hkey by discriminate.
  assert ((<["peer-1" := ptrPeerState (ref 1)]> store0) !! "peer-1"
          = Some (ptrPeerState (ref 1))) as Hm by (vm_compute; reflexivity).
  split; [by split|].
  exact (remove_then_add_restores unit unit unit unit Z _ "peer-1" _ Hkey Hm).
Defined.

Lemma calls_on_different_keys_commute_witness :
  key_of (call_add "a" (otherValue 1%Z) : call unit unit unit unit Z)
  ≠ key_of (call_remove "b" : call unit unit unit unit Z) ∧
  after (perform show (call_add "a" (otherValue 1%Z)) ;;
         perform show (call_remove "b")) (<["b" := nil]> store0)
  = after (perform show (call_remove "b") ;;
           perform show (call_add "a" (otherValue 1%Z)))
      (<["b" := nil]> store0).
Proof.
  assert (key_of (call_add "a" (otherValue 1%Z) : call unit unit unit unit Z)
          ≠ key_of (call_remove "b" : call unit unit unit unit Z)) as Hne
    by discriminate.
  split; [exact Hne|].
  exact (calls_on_different_keys_commute unit unit unit unit Z show
           (<["b" := nil]> store0) _ _ Hne).
Defined.

Lemma last_write_decides_witness :
  ("peer-1" ≠ EmptyString ∧
   never_writes "peer-1" ([call_get "peer-1"; call_add "peer-2" nil] : history)
   = true) ∧
  (get "peer-1"
     (after (perform_all show
               ([call_add "peer-1" nil; call_remove "peer-1"]
                ++ call_add "peer-1" (ptrPeerState (ref 9))
                   :: [call_get "peer-1"; call_add "peer-2" nil]))
        store0)).1
  = (ptrPeerState (ref 9), None).
Proof.
  assert ("peer-1" ≠ EmptyString) as Hkey by discriminate.
  assert (never_writes "peer-1"
            ([call_get "peer-1"; call_add "peer-2" nil] : history) = true)
    as Hcs by (vm_compute; reflexivity).
  split; [by split|].
  exact (proj1 (last_write_decides unit unit unit unit Z show store0
                  "peer-1" (ptrPeerState (ref 9))
                  [call_add "peer-1" nil; call_remove "peer-1"] _ Hkey)
           Hcs).
Defined.

Lemma stored_values_come_from_add_witness :
  after (perform_all show [call_add "a" (otherValue 1%Z); call_get "a"])
    store0 !! "a" = Some (otherValue 1%Z) ∧
  (store0 !! "a" = Some (otherValue 1%Z) ∨
   ("a" ≠ EmptyString ∧
    call_add "a" (otherValue 1%Z)
    ∈ ([call_add "a" (otherValue 1%Z); call_get "a"] : history))).
Proof.
  assert (after (perform_all show [call_add "a" (otherValue 1%Z);
                                   call_get "a"])
            store0 !! "a" = Some (otherValue 1%Z)) as Hv
    by (vm_compute; reflexivity).
  split; [exact Hv|].
  exact (stored_values_come_from_add unit unit unit unit Z show
           store0 _ "a" _ Hv).
Defined.

Lemma entry_count_witness :
  "a" ≠ EmptyString ∧
  size (after (add "a" nil) store0) = S (size store0).
Proof.
  assert ("a" ≠ EmptyString) as Hkey by discriminate.
  split; [exact Hkey|].
  exact (proj1 (entry_count unit unit unit unit Z store0 "a" nil) Hkey).
Defined.

Lemma typed_lookups_return_nil_on_error_witness :
  (getAsSuperState show "cfg" (<["cfg" := otherValue 42%Z]> store0)).1.2
  = Some (convertFailedError show "cfg" (otherValue 42%Z)) ∧
  (getAsSuperState show "cfg" (<["cfg" := otherValue 42%Z]> store0)).1.1
  = null.
Proof.
  assert ((getAsSuperState show "cfg"
             (<["cfg" := otherValue 42%Z]> store0)).1.2
          = Some (convertFailedError show "cfg" (otherValue 42%Z))) as Herr
    by (vm_compute; reflexivity).
  split; [exact Herr|].
  exact (proj1 (typed_lookups_return_nil_on_error unit unit unit unit Z show
                  (<["cfg" := otherValue 42%Z]> store0) "cfg") _ Herr).
Defined.

End Instances.
